(** * saas/views/metrics.py: dashboard pages and CSV exports

    A shallow embedding of the views of [saas/views/metrics.py] (Python 2,
    Django) and of the properties stated about them.  Pure methods are Rocq
    functions, methods that can raise return in the [result] monad, and the
    collaborators that live in other modules of the package (query-source
    mixins, the URL resolver, [json.dumps]) are taken as inputs. *)

From Stdlib Require Import ZArith NArith Lia Ascii String List.
From stdpp Require Import base list strings gmap pretty.

Local Open Scope string_scope.
Local Open Scope list_scope.
Local Open Scope Z_scope.

(** ** Python values *)

Module Py.

(** Exceptions the modelled code can raise. *)
Inductive exn :=
| ValidationError
| UnicodeEncodeError
| AttributeError
| NotImplementedError.

Inductive result (A : Type) :=
| Ok (a : A)
| Raise (e : exn).
Arguments Ok {A} a.
Arguments Raise {A} e.

Definition bind {A B} (m : result A) (k : A -> result B) : result B :=
  match m with
  | Ok a => k a
  | Raise e => Raise e
  end.

#[global] Instance result_ret : MRet result := fun A a => Ok a.
#[global] Instance result_bind : MBind result := fun A B k m => bind m k.
#[global] Instance result_fmap : FMap result :=
  fun A B f m => bind m (fun a => Ok (f a)).

(** [for x in xs: ...] where the body can raise: stops at the first
    exception. *)
Fixpoint traverse {A B} (f : A -> result B) (xs : list A) : result (list B) :=
  match xs with
  | [] => Ok []
  | x :: xs' => y ← f x; ys ← traverse f xs'; Ok (y :: ys)
  end.

(** A Python 2 [unicode] object: a sequence of code points.  A Python 2
    [str] (a byte string) is a Rocq [string]. *)
Definition unicode := list N.

(** [u"..."] for an ASCII literal. *)
Definition u (s : string) : unicode :=
  map N_of_ascii (list_ascii_of_string s).

Definition byte (n : N) : ascii := ascii_of_N n.

(** UTF-8 encoding of one code point. *)
Definition utf8_char (cp : N) : list ascii :=
  if (cp <? 128)%N then
    [byte cp]
  else if (cp <? 2048)%N then
    [byte (N.lor 192 (N.shiftr cp 6));
     byte (N.lor 128 (N.land cp 63))]
  else if (cp <? 65536)%N then
    [byte (N.lor 224 (N.shiftr cp 12));
     byte (N.lor 128 (N.land (N.shiftr cp 6) 63));
     byte (N.lor 128 (N.land cp 63))]
  else
    [byte (N.lor 240 (N.shiftr cp 18));
     byte (N.lor 128 (N.land (N.shiftr cp 12) 63));
     byte (N.lor 128 (N.land (N.shiftr cp 6) 63));
     byte (N.lor 128 (N.land cp 63))].

(** [text.encode('utf-8')]. *)
Definition encode_utf8 (text : unicode) : string :=
  string_of_list_ascii (concat (map utf8_char text)).

(** The implicit ASCII codec Python 2 applies when a [unicode] object is
    handed to an API that wants bytes: it raises on any code point
    above 127. *)
Definition encode_ascii (text : unicode) : result string :=
  if forallb (fun cp => (cp <? 128)%N) text
  then Ok (string_of_list_ascii (map byte text))
  else Raise UnicodeEncodeError.

(** [sep.join(parts)] on unicode objects. *)
Fixpoint join (sep : unicode) (parts : list unicode) : unicode :=
  match parts with
  | [] => []
  | [p] => p
  | p :: rest => p ++ sep ++ join sep rest
  end.

(** [str(n)] for an integer. *)
Definition str_of_int (n : Z) : string := pretty n.

End Py.

(** ** Calendar: [datetime.date], [datetime.datetime], [strftime] *)

Module Calendar.

Record date := mkdate { year : Z; month : Z; day : Z }.

Record datetime := mkdatetime {
  dt_date : date; hour : Z; minute : Z; second : Z }.

Definition is_leap (y : Z) : bool :=
  ((y mod 4 =? 0) && negb (y mod 100 =? 0)) || (y mod 400 =? 0).

Definition days_in_month (y m : Z) : Z :=
  if m =? 2 then (if is_leap y then 29 else 28)
  else if (m =? 4) || (m =? 6) || (m =? 9) || (m =? 11) then 30
  else 31.

(** The values a [datetime.date] can hold. *)
Definition valid_date (d : date) : bool :=
  (1 <=? year d) && (year d <=? 9999) &&
  (1 <=? month d) && (month d <=? 12) &&
  (1 <=? day d) && (day d <=? days_in_month (year d) (month d)).

Definition valid_datetime (t : datetime) : bool :=
  valid_date (dt_date t) &&
  (0 <=? hour t) && (hour t <=? 23) &&
  (0 <=? minute t) && (minute t <=? 59) &&
  (0 <=? second t) && (second t <=? 59).

(** Chronological order, fields compared from the most significant. *)
Definition date_compare (a b : date) : comparison :=
  match year a ?= year b with
  | Eq => match month a ?= month b with
          | Eq => day a ?= day b
          | c => c
          end
  | c => c
  end.

Definition date_ltb (a b : date) : bool :=
  match date_compare a b with Lt => true | _ => false end.


Definition seconds_of_day (t : datetime) : Z :=
  (hour t * 60 + minute t) * 60 + second t.

Definition datetime_compare (a b : datetime) : comparison :=
  match date_compare (dt_date a) (dt_date b) with
  | Eq => seconds_of_day a ?= seconds_of_day b
  | c => c
  end.


Definition datetime_leb (a b : datetime) : bool :=
  match datetime_compare a b with Gt => false | _ => true end.

(** The [k]-th decimal digit of [n], as a character. *)
Definition digit (n : Z) (k : Z) : ascii :=
  ascii_of_N (48 + Z.to_N ((n / 10 ^ k) mod 10)).

Definition zero_pad2 (n : Z) : string :=
  String (digit n 1) (String (digit n 0) EmptyString).

Definition zero_pad4 (n : Z) : string :=
  String (digit n 3) (String (digit n 2) (zero_pad2 n)).

(** Python 2 formats dates from the year 1900 on; [strftime] raises
    [ValueError] before. *)
Definition strftime_domain (d : date) : bool :=
  valid_date d && (1900 <=? year d).

(** [d.strftime('%Y%m%d')], for a date of [strftime_domain]. *)
Definition strftime_Ymd (d : date) : string :=
  zero_pad4 (year d) +:+ zero_pad2 (month d) +:+ zero_pad2 (day d).

(** [str(d)], i.e. [d.isoformat()]: [YYYY-MM-DD]. *)
Definition isoformat (d : date) : string :=
  zero_pad4 (year d) +:+ "-" +:+ zero_pad2 (month d) +:+ "-" +:+ zero_pad2 (day d).

(** [str(t)] for a naive datetime without microseconds:
    [YYYY-MM-DD HH:MM:SS]. *)
Definition str_of_datetime (t : datetime) : string :=
  isoformat (dt_date t) +:+ " " +:+ zero_pad2 (hour t) +:+ ":" +:+
  zero_pad2 (minute t) +:+ ":" +:+ zero_pad2 (second t).

Definition is_digit (c : ascii) : bool :=
  let n := N_of_ascii c in ((48 <=? n) && (n <=? 57))%N.

(** The number a string of decimal digits denotes, [int(s)]. *)
Definition digit_value (c : ascii) : Z := Z.of_N (N_of_ascii c) - 48.

Fixpoint number_of (acc : Z) (s : string) : Z :=
  match s with
  | EmptyString => acc
  | String c s' => number_of (acc * 10 + digit_value c) s'
  end.

End Calendar.

(** ** saas.models: the records the views read *)

Module Models.
Import Py Calendar.

Record Organization := mkOrganization {
  org_pk : Z;
  org_slug : string;
  full_name : unicode;
  org_email : unicode }.

Record Coupon := mkCoupon {
  coupon_pk : Z;
  code : unicode;
  percent : Z }.

Record User := mkUser {
  first_name : unicode;
  last_name : unicode;
  email : unicode;
  date_joined : datetime }.

Record Plan := mkPlan {
  slug : unicode;
  title : unicode;
  plan_organization : Z }.

(** A cart item relates a user and a plan; its coupon is optional
    (a nullable foreign key). *)
Record CartItem := mkCartItem {
  user : User;
  plan : Plan;
  coupon : option Coupon;
  recorded : bool }.

Record Subscription := mkSubscription {
  organization : Organization;
  sub_plan : Plan;
  created_at : datetime;
  ends_at : datetime }.

(** A ledger entry, with the fields {account, amount, created_at,
    organization}. *)
Record Transaction := mkTransaction {
  account : unicode;
  amount : Z;
  tx_created_at : datetime;
  tx_organization : Z }.

(** The tables of the data store, in the order the default managers
    return their rows. *)
Record database := mkdatabase {
  CartItem_objects : list CartItem;
  Transaction_objects : list Transaction;
  Plan_objects : list Plan }.

(** [field=obj] in a queryset filter compares primary keys. *)
Definition same_coupon (c : Coupon) (o : option Coupon) : bool :=
  match o with
  | Some c' => coupon_pk c' =? coupon_pk c
  | None => false
  end.

(** [coupon__in=coupons]. *)
Definition coupon_in (coupons : list Coupon) (o : option Coupon) : bool :=
  existsb (fun c => same_coupon c o) coupons.

End Models.

(** ** saas.managers.metrics: the monthly aggregation helpers *)

Module Managers.
Import Py Calendar Models.

(** A calendar month, as (year, month). *)
Definition ym : Type := Z * Z.

Definition prev_month (p : ym) : ym :=
  let '(y, m) := p in if m =? 1 then (y - 1, 12) else (y, m - 1).


(** The boundary of a month: its last day at 23:59:59. *)
Definition month_end (p : ym) : datetime :=
  let '(y, m) := p in mkdatetime (mkdate y m (days_in_month y m)) 23 59 59.

Definition month_of (d : date) : ym := (year d, month d).

(** The month whose boundary is the latest one not after [from_date]. *)
Definition last_boundary (from_date : date) : ym :=
  if day from_date =? days_in_month (year from_date) (month from_date)
  then month_of from_date
  else prev_month (month_of from_date).

Fixpoint walk_backward (n : nat) (p : ym) : list datetime :=
  match n with
  | O => []
  | S k => month_end p :: walk_backward k (prev_month p)
  end.

(** Modelled from the spec: [month_periods] of saas/managers/metrics.py is
    not part of the sources at hand.  Section 4.1, step 1: the month-end
    boundaries walking backward from the end date for [nb_months]
    iterations, one calendar month at a time; step 3: returned oldest
    first.  By the MonthPeriod invariant (section 3) the last period is
    not after the requested end date.  An invalid end date is rejected
    with a validation error. *)
Definition month_periods (nb_months : nat) (from_date : date)
  : result (list datetime) :=
  if valid_date from_date
  then Ok (reverse (walk_backward nb_months (last_boundary from_date)))
  else Raise ValidationError.

(** The default number of trailing months. *)
Definition nb_months_default : nat := 12.

Definition in_ledger (org : Organization) (acct : unicode)
    (boundary : datetime) (t : Transaction) : bool :=
  (tx_organization t =? org_pk org) &&
  bool_decide (account t = acct) &&
  datetime_leb (tx_created_at t) boundary.

(** Section 4.1, step 2: the sum of the amounts of the transactions of
    (organization, account) created up to the boundary; 0 when there is
    none. *)
Definition balance_at (ledger : list Transaction) (org : Organization)
    (acct : unicode) (boundary : datetime) : Z :=
  foldr Z.add 0
    (map amount (List.filter (in_ledger org acct boundary) ledger)).

(** Modelled from the spec: [monthly_balances] of saas/managers/metrics.py
    is not part of the sources at hand.  Section 4.1: one
    (period-end, balance) pair per boundary of [month_periods], oldest
    first. *)
Definition monthly_balances (ledger : list Transaction)
    (org : Organization) (acct : unicode) (until : date)
  : result (list (datetime * Z)) :=
  periods ← month_periods nb_months_default until;
  Ok (map (fun p => (p, balance_at ledger org acct p)) periods).

(** Modelled from the spec: [Transaction.objects.distinct_accounts()] is
    not part of the sources at hand.  Section 4.3: the distinct account
    labels appearing in the ledger. *)
Definition distinct_accounts (ledger : list Transaction) : list unicode :=
  remove_dups (map account ledger).







End Managers.

(** ** saas.views.download: the CSV export renderer *)

Module Download.
Import Py Calendar.

(** A column value handed to the CSV writer. *)
Inductive cell :=
| CStr (s : string)          (* a byte string *)
| CUnicode (t : unicode)     (* text that was not encoded *)
| CInt (n : Z)
| CDate (d : date)
| CDatetime (t : datetime).

(** Text handed over without having been encoded. *)
Definition is_unicode (c : cell) : bool :=
  match c with CUnicode _ => true | _ => false end.

Record HttpResponse := mkHttpResponse {
  content_type : string;
  content_disposition : string;
  content : string }.

Definition dquote : ascii := ascii_of_N 34.
Definition comma : ascii := ascii_of_N 44.
Definition CR : ascii := ascii_of_N 13.
Definition LF : ascii := ascii_of_N 10.
Definition CRLF : string := String CR (String LF EmptyString).

Definition special (c : ascii) : bool :=
  bool_decide (c = comma) || bool_decide (c = dquote) ||
  bool_decide (c = CR) || bool_decide (c = LF).

Fixpoint double_quotes (s : string) : string :=
  match s with
  | EmptyString => EmptyString
  | String c s' =>
      if bool_decide (c = dquote)
      then String dquote (String dquote (double_quotes s'))
      else String c (double_quotes s')
  end.

(** Standard CSV quoting: a field holding a comma, a quote or a line
    break is wrapped in quotes, its quotes doubled. *)
Definition csv_quote (s : string) : string :=
  if existsb special (list_ascii_of_string s)
  then String dquote (double_quotes s +:+ String dquote EmptyString)
  else s.

(** What the Python 2 writer does with one value: byte strings are
    written as they are, unicode objects go through the ASCII codec,
    anything else through [str]. *)
Definition csv_field (c : cell) : result string :=
  match c with
  | CStr s => Ok s
  | CUnicode t => encode_ascii t
  | CInt n => Ok (str_of_int n)
  | CDate d => Ok (isoformat d)
  | CDatetime t => Ok (str_of_datetime t)
  end.

Fixpoint join_fields (fields : list string) : string :=
  match fields with
  | [] => EmptyString
  | [f] => f
  | f :: rest => f +:+ String comma (join_fields rest)
  end.

Definition writerow (row : list cell) : result string :=
  fields ← traverse csv_field row;
  Ok (join_fields (map csv_quote fields) +:+ CRLF).

Definition concat_lines (lines : list string) : string :=
  foldr String.append EmptyString lines.

Section CSVDownloadView.
Context {R : Type}.
Variable get_headings : result (list cell).
Variable get_queryset : result (list R).
Variable get_filename : string.
Variable queryrow_to_columns : R -> result (list cell).

(** Modelled from the spec: [CSVDownloadView] of saas/views/download.py
    is not part of the sources at hand.  Section 4.2: the heading row
    first, then one row per record of the query source, in iteration
    order, each through [queryrow_to_columns]. *)
Definition rows : result (list (list cell)) :=
  hs ← get_headings;
  records ← get_queryset;
  body ← traverse queryrow_to_columns records;
  Ok (hs :: body).

(** Modelled from the spec: [CSVDownloadView.get].  Sections 4.2 and 6:
    a [text/csv] response named by [get_filename], whose body is the
    rows written in order. *)
Definition get : result HttpResponse :=
  rs ← rows;
  lines ← traverse writerow rs;
  Ok {| content_type := "text/csv";
        content_disposition :=
          "attachment; filename=" +:+ String dquote get_filename
            +:+ String dquote EmptyString;
        content := concat_lines lines |}.

End CSVDownloadView.

End Download.

(** ** saas.views.metrics *)

Module Views.
Import Py Calendar Models Managers Download.

(** The wall clock: [datetime.now()] (local time) and the time
    [datetime_or_now()] falls back to. *)
Record clock := mkclock {
  datetime_now : datetime;
  utcnow : datetime }.

(** Modelled from the spec: [datetime_or_now] of saas/utils.py is not
    part of the sources at hand.  Section 6: the given time, "now" when
    it is absent. *)
Definition datetime_or_now (c : clock) (dtime_at : option datetime)
  : datetime :=
  default (utcnow c) dtime_at.

(** What a view instance gets from the request and from the mixins
    defined in other modules. *)
Record request := mkrequest {
  rq_organization : Organization;     (* OrganizationMixin, MetricsMixin *)
  rq_ends_at : datetime;              (* MetricsMixin.cache_fields *)
  rq_coupon : Coupon;                 (* CouponMixin.get_coupon() *)
  rq_coupons : list Coupon;           (* SmartCouponListMixin queryset *)
  rq_registered : list User;          (* RegisteredQuerysetMixin *)
  rq_subscribed : list Subscription;  (* SubscribedQuerysetMixin *)
  rq_churned : list Subscription }.   (* ChurnedQuerysetMixin *)

(** A table descriptor: a dict literal with string and boolean values,
    its items in source order. *)
Inductive scalar :=
| SStr (s : string)
| SBool (b : bool).

Definition descriptor : Type := list (string * scalar).

(** Values stored in a template context. *)
Inductive value :=
| VStr (s : string)
| VInt (n : Z)
| VTables (l : list descriptor)
| VPlans (ps : list Plan).

(** Library functions the dashboard views call: the URL resolver and
    [json.dumps]. *)
Record externals := mkexternals {
  urlresolvers_reverse : string -> Organization -> string;
  json_dumps : list descriptor -> string }.

(** [context.update({...})]. *)
Definition update (kv : list (string * value)) (context : gmap string value)
  : gmap string value :=
  foldl (fun m p => <[p.1 := p.2]> m) context kv.

(** The keys of a dict literal. *)
Definition keys (d : descriptor) : gset string :=
  list_to_set (d.*1).

Module CouponMetricsView.

Definition paginate_by : Z := 10.

(** [ListView.get_queryset] with [model = CartItem]: all cart items. *)
Definition super_get_queryset (db : database) : list CartItem :=
  CartItem_objects db.

Definition get_queryset (db : database) (rq : request) : list CartItem :=
  List.filter
    (fun ci => same_coupon (rq_coupon rq) (coupon ci) &&
               Bool.eqb (recorded ci) true)
    (super_get_queryset db).

Definition get_context_data (super_context : gmap string value)
    (db : database) (rq : request) : gmap string value :=
  update
    [("coupon_performance_count",
      VInt (Z.of_nat (length
        (List.filter
           (fun ci => same_coupon (rq_coupon rq) (coupon ci) &&
                      Bool.eqb (recorded ci) true)
           (CartItem_objects db)))))]
    super_context.

End CouponMetricsView.

Module CouponMetricsDownloadView.

Definition headings : list string :=
  ["Code"; "Percentage"; "Name"; "Email"; "Plan"].

Definition get_headings : list cell := map CStr headings.

Definition get_filename (c : clock) : string :=
  "coupons-" +:+ strftime_Ymd (dt_date (datetime_now c)) +:+ ".csv".

(** [coupons] is [super().get_queryset()], the coupons the mixins select
    from the URL. *)
Definition get_queryset (db : database) (rq : request) : list CartItem :=
  let coupons := rq_coupons rq in
  List.filter (fun ci => coupon_in coupons (coupon ci))
              (CartItem_objects db).

Definition queryrow_to_columns (cartitem : CartItem)
  : result (list cell) :=
  match coupon cartitem with
  | None => Raise AttributeError
  | Some cp =>
      Ok [ CStr (encode_utf8 (code cp));
           CInt (percent cp);
           CStr (encode_utf8
                   (join (u " ") [first_name (user cartitem);
                                  last_name (user cartitem)]));
           CStr (encode_utf8 (email (user cartitem)));
           CStr (encode_utf8 (slug (plan cartitem))) ]
  end.

End CouponMetricsDownloadView.

Module BalancesDownloadView.

Definition queryname : string := "balances".

Definition get_headings (rq : request) : result (list cell) :=
  periods ← month_periods nb_months_default (dt_date (rq_ends_at rq));
  Ok (CStr "name" :: map CDatetime periods).

Definition get_filename : string := queryname +:+ ".csv".

Definition get_queryset (db : database) : list unicode :=
  distinct_accounts (Transaction_objects db).

Definition queryrow_to_columns (db : database) (rq : request)
    (account : unicode) : result (list cell) :=
  balances ← monthly_balances (Transaction_objects db)
               (rq_organization rq) account (dt_date (rq_ends_at rq));
  Ok (CUnicode account :: map (fun item => CInt item.2) balances).

End BalancesDownloadView.

Module RegisteredBaseDownloadView.

Definition get_headings : list cell :=
  map CStr ["First name"; "Last name"; "Email"; "Registration Date"].

Definition get_filename (c : clock) : string :=
  "registered-" +:+ strftime_Ymd (dt_date (datetime_or_now c None))
    +:+ ".csv".

Definition queryrow_to_columns (instance : User) : list cell :=
  [ CStr (encode_utf8 (first_name instance));
    CStr (encode_utf8 (last_name instance));
    CStr (encode_utf8 (email instance));
    CDate (dt_date (date_joined instance)) ].

End RegisteredBaseDownloadView.

Module SubscriptionBaseDownloadView.

(** [str.format] of the class attribute: [None] prints as "None". *)
Definition format_subscriber_type (subscriber_type : option string)
  : string :=
  default "None" subscriber_type.

Definition get_queryset : result (list Subscription) :=
  Raise NotImplementedError.

Definition get_headings : list cell :=
  map CStr ["Name"; "Email"; "Plan"; "Since"; "Until"].

Definition get_filename (subscriber_type : option string) (c : clock)
  : string :=
  "subscribers-" +:+ format_subscriber_type subscriber_type +:+ "-"
    +:+ strftime_Ymd (dt_date (datetime_or_now c None)) +:+ ".csv".

Definition queryrow_to_columns (instance : Subscription) : list cell :=
  [ CStr (encode_utf8 (full_name (organization instance)));
    CStr (encode_utf8 (org_email (organization instance)));
    CStr (encode_utf8 (title (sub_plan instance)));
    CDate (dt_date (created_at instance));
    CDate (dt_date (ends_at instance)) ].

End SubscriptionBaseDownloadView.

Module ActiveSubscriptionBaseDownloadView.
Definition subscriber_type : option string := Some "active".
End ActiveSubscriptionBaseDownloadView.

Module ChurnedSubscriptionBaseDownloadView.
Definition subscriber_type : option string := Some "churned".
End ChurnedSubscriptionBaseDownloadView.

Module PlansMetricsView.

Definition template_name : string := "saas/metrics/plans.html".

Definition get_context_data (ext : externals)
    (super_context : gmap string value) (db : database) (rq : request)
  : gmap string value :=
  let context := super_context in
  let tables :=
    [ [ ("title", SStr "Active subscribers");
        ("key", SStr "plan");
        ("active", SBool true);
        ("location", SStr (urlresolvers_reverse ext "saas_api_plan"
                             (rq_organization rq))) ] ] in
  let context :=
    update [ ("title", VStr "Plans");
             ("tables", VStr (json_dumps ext tables)) ] context in
  let plans :=
    List.filter
      (fun p => plan_organization p =? org_pk (rq_organization rq))
      (Plan_objects db) in
  update [ ("plans", VPlans plans) ] context.

End PlansMetricsView.

Module RevenueMetricsView.

Definition template_name : string := "saas/metrics/base.html".

Definition get_context_data (ext : externals)
    (super_context : gmap string value) (rq : request)
  : gmap string value :=
  update
    [ ("title", VStr "Revenue");
      ("tables",
       VTables
         [ [ ("key", SStr "cash");
             ("title", SStr "Cash flow");
             ("unit", SStr "$");
             ("location", SStr (urlresolvers_reverse ext "saas_api_revenue"
                                  (rq_organization rq))) ];
           [ ("key", SStr "balances");
             ("title", SStr "Balances");
             ("unit", SStr "$");
             ("location", SStr (urlresolvers_reverse ext "saas_api_balances"
                                  (rq_organization rq))) ];
           [ ("key", SStr "customer");
             ("title", SStr "Customers");
             ("location", SStr (urlresolvers_reverse ext "saas_api_customer"
                                  (rq_organization rq))) ] ]) ]
    super_context.

End RevenueMetricsView.

(** The keys section 6 gives a table descriptor. *)
Definition descriptor_keys : gset string :=
  {[ "title"; "key"; "active"; "location" ]}.

(** A context that embeds a JSON-serialized list of table descriptors,
    each with exactly the keys of [descriptor_keys]. *)
Definition embeds_json_tables (ext : externals)
    (context : gmap string value) : Prop :=
  exists tables : list descriptor,
    context !! "tables" = Some (VStr (json_dumps ext tables)) /\
    Forall (fun d => keys d = descriptor_keys) tables.

(** A context whose ["tables"] entry holds the given descriptors, as a
    list or serialized. *)
Definition describes_tables (ext : externals)
    (context : gmap string value) (tables : list descriptor) : Prop :=
  context !! "tables" = Some (VTables tables) \/
  context !! "tables" = Some (VStr (json_dumps ext tables)).

(** *** The download views, as one family

    The five views routed to a download.  [RegisteredBaseDownloadView],
    [ActiveSubscriptionBaseDownloadView] and
    [ChurnedSubscriptionBaseDownloadView] have the methods of the view
    derived from them and differ in the query source only;
    [SubscriptionBaseDownloadView] is abstract. *)

Inductive download_view :=
| CouponMetricsDownload
| BalancesDownload
| RegisteredDownload
| ActiveSubscriptionDownload
| ChurnedSubscriptionDownload.

(** The record type of each view's query source. *)
Definition record_of (v : download_view) : Type :=
  match v with
  | CouponMetricsDownload => CartItem
  | BalancesDownload => unicode
  | RegisteredDownload => User
  | ActiveSubscriptionDownload | ChurnedSubscriptionDownload => Subscription
  end.

Definition get_headings (v : download_view) (rq : request)
  : result (list cell) :=
  match v with
  | CouponMetricsDownload => Ok CouponMetricsDownloadView.get_headings
  | BalancesDownload => BalancesDownloadView.get_headings rq
  | RegisteredDownload => Ok RegisteredBaseDownloadView.get_headings
  | ActiveSubscriptionDownload | ChurnedSubscriptionDownload =>
      Ok SubscriptionBaseDownloadView.get_headings
  end.

Definition get_filename (v : download_view) (c : clock) : string :=
  match v with
  | CouponMetricsDownload => CouponMetricsDownloadView.get_filename c
  | BalancesDownload => BalancesDownloadView.get_filename
  | RegisteredDownload => RegisteredBaseDownloadView.get_filename c
  | ActiveSubscriptionDownload =>
      SubscriptionBaseDownloadView.get_filename
        ActiveSubscriptionBaseDownloadView.subscriber_type c
  | ChurnedSubscriptionDownload =>
      SubscriptionBaseDownloadView.get_filename
        ChurnedSubscriptionBaseDownloadView.subscriber_type c
  end.

(** The query sources; those of the registered and subscription views
    come from mixins of other modules. *)
Definition get_queryset (v : download_view) (db : database) (rq : request)
  : list (record_of v) :=
  match v with
  | CouponMetricsDownload => CouponMetricsDownloadView.get_queryset db rq
  | BalancesDownload => BalancesDownloadView.get_queryset db
  | RegisteredDownload => rq_registered rq
  | ActiveSubscriptionDownload => rq_subscribed rq
  | ChurnedSubscriptionDownload => rq_churned rq
  end.

Definition queryrow_to_columns (v : download_view) (db : database)
    (rq : request) : record_of v -> result (list cell) :=
  match v with
  | CouponMetricsDownload => CouponMetricsDownloadView.queryrow_to_columns
  | BalancesDownload => BalancesDownloadView.queryrow_to_columns db rq
  | RegisteredDownload =>
      fun r => Ok (RegisteredBaseDownloadView.queryrow_to_columns r)
  | ActiveSubscriptionDownload | ChurnedSubscriptionDownload =>
      fun r => Ok (SubscriptionBaseDownloadView.queryrow_to_columns r)
  end.

(** The rows of the exported document and the response of a download
    request. *)
Definition export_rows (v : download_view) (db : database) (rq : request)
  : result (list (list cell)) :=
  rows (get_headings v rq) (Ok (get_queryset v db rq))
       (queryrow_to_columns v db rq).

Definition get (v : download_view) (c : clock) (db : database)
    (rq : request) : result HttpResponse :=
  Download.get (get_headings v rq) (Ok (get_queryset v db rq))
               (get_filename v c) (queryrow_to_columns v db rq).

(** The date each view stamps its file name with: the coupon export
    calls [datetime.now()], the others [datetime_or_now()]. *)
Definition today (v : download_view) (c : clock) : date :=
  match v with
  | CouponMetricsDownload => dt_date (datetime_now c)
  | _ => dt_date (datetime_or_now c None)
  end.

(** The file name patterns of section 6: [<report-key>-<YYYYMMDD>.csv],
    the stamp being eight digits that read as the date, and
    [<report-key>.csv]. *)
Definition dated_filename (key : string) (d : date) (name : string) : Prop :=
  exists stamp : string,
    name = key +:+ "-" +:+ stamp +:+ ".csv" /\
    String.length stamp = 8%nat /\
    forallb is_digit (list_ascii_of_string stamp) = true /\
    number_of 0 stamp = year d * 10000 + month d * 100 + day d.

Definition plain_filename (key : string) (name : string) : Prop :=
  name = key +:+ ".csv".

(** The report key of each export's file name. *)
Definition report_key (v : download_view) : string :=
  match v with
  | CouponMetricsDownload => "coupons"
  | BalancesDownload => "balances"
  | RegisteredDownload => "registered"
  | ActiveSubscriptionDownload => "subscribers-active"
  | ChurnedSubscriptionDownload => "subscribers-churned"
  end.

End Views.

(** ** Concrete inputs: the scenarios of section 8 of the specification *)

Module Scenario.
Import Py Calendar Models Managers Download Views.

Definition at_noon (y m d : Z) : datetime := mkdatetime (mkdate y m d) 12 0 0.

Definition org_O : Organization :=
  mkOrganization 1 "o" (u "O") (u "o@example.com").

(** +100 on 2024-01-05 and -30 on 2024-03-10 in account "cash". *)
Definition cash_ledger : list Transaction :=
  [ mkTransaction (u "cash") 100 (at_noon 2024 1 5) 1;
    mkTransaction (u "cash") (-30) (at_noon 2024 3 10) 1 ].

Definition end_of_march : datetime := mkdatetime (mkdate 2024 3 31) 0 0 0.

Definition SAVE10 : Coupon := mkCoupon 1 (u "SAVE10") 10.

Definition alice : User :=
  mkUser (u "Alice") (u "Martin") (u "alice@example.com") (at_noon 2024 1 2).

(** A user whose first name is "Zoë". *)
Definition zoe : User :=
  mkUser [90; 111; 235]%N (u "Smith") (u "zoe@example.com")
         (at_noon 2024 2 3).

Definition basic : Plan := mkPlan (u "basic") (u "Basic") 1.

(** The coupon applied to two recorded cart items and one that was never
    checked out. *)
Definition cart : list CartItem :=
  [ mkCartItem alice basic (Some SAVE10) true;
    mkCartItem zoe basic (Some SAVE10) true;
    mkCartItem alice basic (Some SAVE10) false ].

Definition store : database := mkdatabase cart cash_ledger [basic].

Definition the_request : request :=
  mkrequest org_O end_of_march SAVE10 [SAVE10] [] [] [].

Definition a_clock : clock :=
  mkclock (at_noon 2024 4 1) (at_noon 2024 4 1).

(** An account label that is not ASCII: "Dépôts". *)
Definition depots : unicode := [68; 233; 112; 244; 116; 115]%N.

Definition depots_ledger : list Transaction :=
  [ mkTransaction depots 50 (at_noon 2024 2 1) 1 ].

Definition depots_store : database := mkdatabase [] depots_ledger [].

Definition a_subscription : Subscription :=
  mkSubscription org_O basic (at_noon 2023 5 1) (at_noon 2024 5 1).

(** A request whose active and churned selections hold the same record. *)
Definition subscriptions_request : request :=
  mkrequest org_O end_of_march SAVE10 [SAVE10] []
            [a_subscription] [a_subscription].

Definition no_externals : externals :=
  mkexternals (fun name org => "/" +:+ name +:+ "/" +:+ org_slug org +:+ "/")
              (fun _ => "[]").

End Scenario.

(** * Properties *)

Import Py Calendar Models Managers Download Views.

(** ** The calendar *)

Section CalendarFacts.

Lemma days_in_month_bounds y m : 28 <= days_in_month y m <= 31.
Proof.
  unfold days_in_month.
  destruct (m =? 2); [destruct (is_leap y); lia|].
  destruct ((m =? 4) || (m =? 6) || (m =? 9) || (m =? 11)); lia.
Qed.




Lemma digit_is_digit n k : is_digit (digit n k) = true.
Proof.
  unfold is_digit, digit.
  pose proof (Z.mod_pos_bound (n / 10 ^ k) 10 eq_refl) as Hb.
  rewrite N_ascii_embedding by lia.
  apply andb_true_iff; split; apply N.leb_le; lia.
Qed.

End CalendarFacts.

(** ** [strftime('%Y%m%d')] *)

Section Strftime.

Lemma digit_value_digit n k : digit_value (digit n k) = (n / 10 ^ k) mod 10.
Proof.
  unfold digit_value, digit.
  pose proof (Z.mod_pos_bound (n / 10 ^ k) 10 eq_refl).
  rewrite N_ascii_embedding by lia. lia.
Qed.

Lemma number_of_zero_pad2 acc n s :
  0 <= n < 100 ->
  number_of acc (zero_pad2 n +:+ s) = number_of (acc * 100 + n) s.
Proof.
  intros Hn.
  change (number_of ((acc * 10 + digit_value (digit n 1)) * 10
                     + digit_value (digit n 0)) s = number_of (acc * 100 + n) s).
  rewrite !digit_value_digit. f_equal.
  change (10 ^ 1) with 10. change (10 ^ 0) with 1.
  Z.div_mod_to_equations. lia.
Qed.

Lemma number_of_zero_pad4 acc n s :
  0 <= n < 10000 ->
  number_of acc (zero_pad4 n +:+ s) = number_of (acc * 10000 + n) s.
Proof.
  intros Hn.
  change (number_of ((((acc * 10 + digit_value (digit n 3)) * 10
                       + digit_value (digit n 2)) * 10
                      + digit_value (digit n 1)) * 10
                     + digit_value (digit n 0)) s
          = number_of (acc * 10000 + n) s).
  rewrite !digit_value_digit. f_equal.
  change (10 ^ 3) with 1000. change (10 ^ 2) with 100.
  change (10 ^ 1) with 10. change (10 ^ 0) with 1.
  Z.div_mod_to_equations. lia.
Qed.

(** The stamp is eight digits and reads back as the date. *)
Lemma strftime_Ymd_digits d :
  String.length (strftime_Ymd d) = 8%nat /\
  forallb is_digit (list_ascii_of_string (strftime_Ymd d)) = true.
Proof.
  split; [done|].
  change (forallb is_digit
            [digit (year d) 3; digit (year d) 2; digit (year d) 1;
             digit (year d) 0; digit (month d) 1; digit (month d) 0;
             digit (day d) 1; digit (day d) 0] = true).
  cbn [forallb]. by rewrite !digit_is_digit.
Qed.

Lemma valid_date_bounds d :
  valid_date d = true ->
  1 <= year d <= 9999 /\ 1 <= month d <= 12 /\
  1 <= day d <= days_in_month (year d) (month d).
Proof.
  unfold valid_date. rewrite !andb_true_iff, !Z.leb_le. lia.
Qed.

Lemma strftime_Ymd_value d :
  valid_date d = true ->
  number_of 0 (strftime_Ymd d) = year d * 10000 + month d * 100 + day d.
Proof.
  intros (Hy & Hm & Hd)%valid_date_bounds.
  pose proof (days_in_month_bounds (year d) (month d)).
  unfold strftime_Ymd.
  rewrite number_of_zero_pad4 by lia.
  rewrite number_of_zero_pad2 by lia.
  replace (zero_pad2 (day d)) with (zero_pad2 (day d) +:+ EmptyString)
    by (unfold zero_pad2; done).
  rewrite number_of_zero_pad2 by lia. simpl. lia.
Qed.

End Strftime.

(** ** File names *)

(** C5: every download view names its file [<report-key>-<YYYYMMDD>.csv],
    with the report keys coupons, registered, subscribers-active and
    subscribers-churned and the stamp being the current date, except the
    balances export, whose file is [balances.csv]. *)
Theorem get_filename_pattern (v : download_view) (c : clock) :
  strftime_domain (today v c) = true ->
  match v with
  | BalancesDownload => plain_filename (report_key v) (get_filename v c)
  | _ => dated_filename (report_key v) (today v c) (get_filename v c)
  end.
Proof.
  intros [Hvalid _]%andb_true_iff.
  pose proof (strftime_Ymd_digits (today v c)) as [Hlen Hdig].
  pose proof (strftime_Ymd_value _ Hvalid) as Hval.
  destruct v; try reflexivity;
    (eexists; split; [reflexivity|]; by repeat split).
Qed.

Lemma get_filename_pattern_witness :
  dated_filename "coupons" (mkdate 2024 4 1)
    (get_filename CouponMetricsDownload Scenario.a_clock).
Proof.
  exact (get_filename_pattern CouponMetricsDownload Scenario.a_clock eq_refl).
Defined.

(** ** Month periods *)

Section MonthPeriods.

Implicit Types (p q : ym) (n i : nat).
















Lemma month_periods_total n d :
  valid_date d = true -> exists periods, month_periods n d = Ok periods.
Proof. intros Hv. unfold month_periods. rewrite Hv. eauto. Qed.

End MonthPeriods.

(** ** Monthly balances *)

Section MonthlyBalances.



End MonthlyBalances.




(** The scenario of section 8: +100 on 2024-01-05 and -30 on 2024-03-10
    give 100, 100 and 70 at the ends of January, February and March 2024,
    after nine periods at 0. *)
Example monthly_balances_scenario :
  (fun seq => map (fun item => (dt_date item.1, item.2)) seq) <$>
    monthly_balances Scenario.cash_ledger Scenario.org_O (u "cash")
      (mkdate 2024 3 31)
  = Ok [ (mkdate 2023 4 30, 0); (mkdate 2023 5 31, 0); (mkdate 2023 6 30, 0);
         (mkdate 2023 7 31, 0); (mkdate 2023 8 31, 0); (mkdate 2023 9 30, 0);
         (mkdate 2023 10 31, 0); (mkdate 2023 11 30, 0);
         (mkdate 2023 12 31, 0); (mkdate 2024 1 31, 100);
         (mkdate 2024 2 29, 100); (mkdate 2024 3 31, 70) ].
Proof. reflexivity. Qed.

(** ** Rows and headings *)

Section Rows.

Lemma coupon_in_Some coupons o :
  coupon_in coupons o = true -> exists cp, o = Some cp.
Proof.
  unfold coupon_in. intros (c & _ & Hc)%existsb_exists.
  destruct o; [eauto|done].
Qed.

(** Every cart item of the coupon export's query source has a coupon, so
    its row can be built. *)
Lemma coupon_queryset_has_coupon db rq ci :
  In ci (CouponMetricsDownloadView.get_queryset db rq) ->
  exists cp, coupon ci = Some cp.
Proof.
  unfold CouponMetricsDownloadView.get_queryset.
  intros [_ Hc]%filter_In. by apply coupon_in_Some in Hc.
Qed.

Lemma balances_row_length db rq acct hs :
  BalancesDownloadView.get_headings rq = Ok hs ->
  exists row,
    BalancesDownloadView.queryrow_to_columns db rq acct = Ok row /\
    length row = length hs.
Proof.
  unfold BalancesDownloadView.get_headings,
    BalancesDownloadView.queryrow_to_columns, monthly_balances.
  destruct (month_periods nb_months_default (dt_date (rq_ends_at rq)))
    as [periods|e]; [|done].
  intros [= <-]. eexists. split; [reflexivity|].
  simpl. by rewrite !length_map.
Qed.

End Rows.

(** C2: in every download view, the row [queryrow_to_columns] builds for a
    record of the view's query source has as many columns as
    [get_headings] has headings; for the balances export, one balance per
    month period after the account name. *)
Theorem queryrow_to_columns_length
    (v : download_view) (db : database) (rq : request) (r : record_of v) :
  valid_date (dt_date (rq_ends_at rq)) = true ->
  In r (get_queryset v db rq) ->
  exists (row hs : list cell),
    queryrow_to_columns v db rq r = Ok row /\
    get_headings v rq = Ok hs /\
    length row = length hs.
Proof.
  intros Hv Hr. destruct v; simpl in *.
  - apply coupon_queryset_has_coupon in Hr as [cp Hcp].
    unfold CouponMetricsDownloadView.queryrow_to_columns. rewrite Hcp.
    by do 2 eexists.
  - destruct (month_periods_total nb_months_default _ Hv) as [periods Hp].
    assert (BalancesDownloadView.get_headings rq
            = Ok (CStr "name" :: map CDatetime periods)) as Hh
      by (unfold BalancesDownloadView.get_headings; by rewrite Hp).
    destruct (balances_row_length db rq r _ Hh) as (row & Hrow & Hlen).
    by exists row, (CStr "name" :: map CDatetime periods).
  - by do 2 eexists.
  - by do 2 eexists.
  - by do 2 eexists.
Qed.

Lemma queryrow_to_columns_length_witness :
  exists (row hs : list cell),
    queryrow_to_columns BalancesDownload Scenario.store Scenario.the_request
      (u "cash") = Ok row /\
    get_headings BalancesDownload Scenario.the_request = Ok hs /\
    length row = length hs.
Proof.
  apply (queryrow_to_columns_length BalancesDownload Scenario.store
           Scenario.the_request (u "cash")).
  - reflexivity.
  - vm_compute. left. reflexivity.
Defined.

(** ** The export as a whole *)

Section ExportBody.

(** The body of the response does not depend on the file name. *)
Lemma content_get_filename {R : Type} (hs : result (list cell))
    (qs : result (list R)) (f1 f2 : string)
    (to_columns : R -> result (list cell)) :
  content <$> Download.get hs qs f1 to_columns
  = content <$> Download.get hs qs f2 to_columns.
Proof.
  unfold Download.get.
  destruct (rows hs qs to_columns) as [rs|e]; [|done]. simpl.
  by destruct (traverse writerow rs).
Qed.

End ExportBody.

(** C7: the export is deterministic.  Two runs of a download view over the
    same records in the same order, with the same end date, organization
    and ledger, return the same bytes, whatever the clocks read and
    whatever else differs between the runs. *)
Theorem export_deterministic
    (v : download_view) (c1 c2 : clock) (db1 db2 : database)
    (rq1 rq2 : request) :
  get_queryset v db1 rq1 = get_queryset v db2 rq2 ->
  rq_ends_at rq1 = rq_ends_at rq2 ->
  rq_organization rq1 = rq_organization rq2 ->
  Transaction_objects db1 = Transaction_objects db2 ->
  content <$> get v c1 db1 rq1 = content <$> get v c2 db2 rq2.
Proof.
  intros Hq He Ho Ht. unfold get. rewrite Hq.
  assert (get_headings v rq1 = get_headings v rq2) as ->.
  { destruct v; simpl; try done.
    unfold BalancesDownloadView.get_headings. by rewrite He. }
  assert (queryrow_to_columns v db1 rq1 = queryrow_to_columns v db2 rq2) as ->.
  { destruct v; simpl; try done.
    unfold BalancesDownloadView.queryrow_to_columns. by rewrite He, Ho, Ht. }
  apply content_get_filename.
Qed.

(** Two runs on the first and on the second of April 2024, the second
    with further cart items of other coupons and other plans on record. *)
Lemma export_deterministic_witness :
  content <$> get CouponMetricsDownload Scenario.a_clock Scenario.store
                Scenario.the_request
  = content <$> get CouponMetricsDownload
                  (mkclock (Scenario.at_noon 2024 4 2)
                           (Scenario.at_noon 2024 4 2))
                  (mkdatabase
                     (mkCartItem Scenario.alice Scenario.basic None true
                        :: Scenario.cart)
                     Scenario.cash_ledger [])
                  Scenario.the_request.
Proof.
  apply export_deterministic; reflexivity.
Defined.

(** C8: with no registered user, the export of [RegisteredDownloadView]
    succeeds and is the heading row alone. *)
Theorem registered_export_empty (c : clock) (db : database) (rq : request) :
  rq_registered rq = [] ->
  export_rows RegisteredDownload db rq
  = Ok [ [CStr "First name"; CStr "Last name"; CStr "Email";
          CStr "Registration Date"] ] /\
  content <$> get RegisteredDownload c db rq
  = Ok ("First name,Last name,Email,Registration Date" +:+ CRLF).
Proof.
  intros Hq. unfold export_rows, get, Download.get, rows. simpl.
  rewrite Hq. split; reflexivity.
Qed.

Lemma registered_export_empty_witness :
  export_rows RegisteredDownload Scenario.store Scenario.the_request
  = Ok [ [CStr "First name"; CStr "Last name"; CStr "Email";
          CStr "Registration Date"] ] /\
  content <$> get RegisteredDownload Scenario.a_clock Scenario.store
                Scenario.the_request
  = Ok ("First name,Last name,Email,Registration Date" +:+ CRLF).
Proof.
  apply (registered_export_empty Scenario.a_clock Scenario.store
           Scenario.the_request).
  reflexivity.
Defined.

(** C9: the count [CouponMetricsView] puts in its context is the size of
    the view's unpaginated queryset over the same data. *)
Theorem coupon_performance_count_is_queryset_size
    (super_context : gmap string value) (db : database) (rq : request) :
  CouponMetricsView.get_context_data super_context db rq
    !! "coupon_performance_count"
  = Some (VInt (Z.of_nat (length (CouponMetricsView.get_queryset db rq)))).
Proof.
  unfold CouponMetricsView.get_context_data, update,
    CouponMetricsView.get_queryset, CouponMetricsView.super_get_queryset.
  simpl. apply lookup_insert_eq.
Qed.

(** C10: the active and the churned subscription exports share one row
    mapping and one list of headings; their file names differ in the
    subscriber-type segment only, and over the same selection of records
    the two exports are the same bytes. *)
Theorem subscription_exports_agree
    (c : clock) (db : database) (rq : request) :
  (forall r : Subscription,
     queryrow_to_columns ActiveSubscriptionDownload db rq r
     = queryrow_to_columns ChurnedSubscriptionDownload db rq r) /\
  get_headings ActiveSubscriptionDownload rq
    = Ok (map CStr ["Name"; "Email"; "Plan"; "Since"; "Until"]) /\
  get_headings ChurnedSubscriptionDownload rq
    = Ok (map CStr ["Name"; "Email"; "Plan"; "Since"; "Until"]) /\
  (exists stamp : string,
     get_filename ActiveSubscriptionDownload c
       = "subscribers-" +:+ "active" +:+ "-" +:+ stamp +:+ ".csv" /\
     get_filename ChurnedSubscriptionDownload c
       = "subscribers-" +:+ "churned" +:+ "-" +:+ stamp +:+ ".csv") /\
  (rq_subscribed rq = rq_churned rq ->
   content <$> get ActiveSubscriptionDownload c db rq
   = content <$> get ChurnedSubscriptionDownload c db rq).
Proof.
  split; [done|]. split; [done|]. split; [done|]. split.
  - by eexists.
  - intros Hsel. unfold get. simpl. rewrite Hsel. apply content_get_filename.
Qed.

Lemma subscription_exports_agree_same_selection :
  content <$> get ActiveSubscriptionDownload Scenario.a_clock Scenario.store
                Scenario.subscriptions_request
  = content <$> get ChurnedSubscriptionDownload Scenario.a_clock
                  Scenario.store Scenario.subscriptions_request.
Proof.
  apply (subscription_exports_agree Scenario.a_clock Scenario.store
           Scenario.subscriptions_request).
  reflexivity.
Defined.

(** ** Dashboard contexts *)

Section Dashboards.

Variable ext : externals.
Variable super_context : gmap string value.

Lemma plans_tables_lookup db rq :
  PlansMetricsView.get_context_data ext super_context db rq !! "tables"
  = Some (VStr (json_dumps ext
      [ [ ("title", SStr "Active subscribers");
          ("key", SStr "plan");
          ("active", SBool true);
          ("location", SStr (urlresolvers_reverse ext "saas_api_plan"
                               (rq_organization rq))) ] ])).
Proof.
  unfold PlansMetricsView.get_context_data, update. simpl.
  rewrite lookup_insert_ne by done. apply lookup_insert_eq.
Qed.

Lemma revenue_tables_lookup rq :
  exists location1 location2 location3 : string,
    RevenueMetricsView.get_context_data ext super_context rq !! "tables"
    = Some (VTables
        [ [ ("key", SStr "cash"); ("title", SStr "Cash flow");
            ("unit", SStr "$"); ("location", SStr location1) ];
          [ ("key", SStr "balances"); ("title", SStr "Balances");
            ("unit", SStr "$"); ("location", SStr location2) ];
          [ ("key", SStr "customer"); ("title", SStr "Customers");
            ("location", SStr location3) ] ]).
Proof.
  do 3 eexists.
  unfold RevenueMetricsView.get_context_data, update. simpl.
  apply lookup_insert_eq.
Qed.

End Dashboards.

(** C4 (as amended): [PlansMetricsView] embeds in its context, under
    "tables", the JSON serialization of one table descriptor whose keys
    are exactly title, key, active and location.  The "tables" entry of
    [RevenueMetricsView] holds three descriptors: cash and balances with
    the keys key, title, unit and location, customer with the keys key,
    title and location; none has the key active. *)
Theorem dashboard_table_descriptors
    (ext : externals) (super_context : gmap string value)
    (db : database) (rq : request) :
  (exists d : descriptor,
     PlansMetricsView.get_context_data ext super_context db rq !! "tables"
       = Some (VStr (json_dumps ext [d])) /\
     keys d = descriptor_keys) /\
  (exists d1 d2 d3 : descriptor,
     describes_tables ext
       (RevenueMetricsView.get_context_data ext super_context rq)
       [d1; d2; d3] /\
     keys d1 = {[ "key"; "title"; "unit"; "location" ]} /\
     keys d2 = {[ "key"; "title"; "unit"; "location" ]} /\
     keys d3 = {[ "key"; "title"; "location" ]} /\
     Forall (fun d => "active" ∉ keys d) [d1; d2; d3]).
Proof.
  split.
  - eexists. split; [apply plans_tables_lookup|].
    unfold keys, descriptor_keys. simpl. set_solver.
  - destruct (revenue_tables_lookup ext super_context rq)
      as (l1 & l2 & l3 & Hl).
    do 3 eexists. split; [left; exact Hl|].
    unfold keys. simpl.
    split; [set_solver|]. split; [set_solver|]. split; [set_solver|].
    repeat (apply Forall_cons; split;
            [simpl; rewrite !not_elem_of_union, !not_elem_of_singleton;
             by repeat split|]).
    apply Forall_nil_2.
Qed.

(** C4 as stated fails on [RevenueMetricsView]: its "tables" entry is a
    list that went through no serialization, and its first descriptor has
    the key unit and lacks the key active. *)
Lemma revenue_tables_counterexample :
  let context :=
    RevenueMetricsView.get_context_data Scenario.no_externals ∅
      Scenario.the_request in
  ~ embeds_json_tables Scenario.no_externals context /\
  exists (d : descriptor) (rest : list descriptor),
    context !! "tables" = Some (VTables (d :: rest)) /\
    keys d <> descriptor_keys.
Proof.
  destruct (revenue_tables_lookup Scenario.no_externals ∅
              Scenario.the_request) as (l1 & l2 & l3 & Hl).
  split.
  - intros (tables & Ht & _). rewrite Hl in Ht. discriminate.
  - do 2 eexists. split; [exact Hl|].
    unfold keys, descriptor_keys. simpl. intros Heq.
    assert ("unit" ∈ ({[ "title"; "key"; "active"; "location" ]} : gset string))
      as Hin by (rewrite <- Heq; set_solver).
    set_solver.
Qed.

(** ** The coupon export and the [recorded] flag *)

Section CouponExport.

Lemma traverse_length {A B} (f : A -> result B) (xs : list A) :
  Forall (fun x => exists y, f x = Ok y) xs ->
  exists ys, traverse f xs = Ok ys /\ length ys = length xs.
Proof.
  induction 1 as [|x xs [y Hy] _ (ys & Hys & Hlen)]; simpl.
  - by exists [].
  - rewrite Hy. simpl. rewrite Hys. simpl. exists (y :: ys).
    split; [done|]. simpl. by rewrite Hlen.
Qed.

(** The export has one data row per cart item whose coupon is among the
    selected ones; [recorded] is not looked at. *)
Lemma coupon_export_row_count db rq :
  exists hs body,
    export_rows CouponMetricsDownload db rq = Ok (hs :: body) /\
    length body
    = length (List.filter (fun ci => coupon_in (rq_coupons rq) (coupon ci))
                          (CartItem_objects db)).
Proof.
  unfold export_rows, rows. simpl.
  destruct (traverse_length CouponMetricsDownloadView.queryrow_to_columns
              (CouponMetricsDownloadView.get_queryset db rq))
    as (body & Hbody & Hlen).
  { apply List.Forall_forall. intros ci [cp Hcp]%coupon_queryset_has_coupon.
    unfold CouponMetricsDownloadView.queryrow_to_columns. rewrite Hcp. eauto. }
  rewrite Hbody. simpl. by do 2 eexists.
Qed.

End CouponExport.

(** C1 (the code on the scenario of section 8): coupon SAVE10 on two
    recorded cart items and one unrecorded.  [CouponMetricsView] lists the
    two recorded items; the export of [CouponMetricsDownloadView] has
    three data rows. *)
Theorem coupon_export_includes_unrecorded :
  length (List.filter recorded Scenario.cart) = 2%nat /\
  length (CouponMetricsView.get_queryset Scenario.store Scenario.the_request)
    = 2%nat /\
  exists hs body,
    export_rows CouponMetricsDownload Scenario.store Scenario.the_request
      = Ok (hs :: body) /\
    length body = 3%nat.
Proof.
  split; [reflexivity|]. split; [reflexivity|].
  do 2 eexists. split; [vm_compute; reflexivity|reflexivity].
Qed.

(** ** Encoding of text columns *)

Section Encoding.

Example encode_utf8_two_bytes :
  encode_utf8 [90; 111; 235]%N
  = String "Z" (String "o" (String (byte 195) (String (byte 171) EmptyString))).
Proof. reflexivity. Qed.

Example encode_utf8_three_bytes :
  encode_utf8 [8364]%N
  = String (byte 226) (String (byte 130) (String (byte 172) EmptyString)).
Proof. reflexivity. Qed.

Example encode_utf8_four_bytes :
  encode_utf8 [119070]%N
  = String (byte 240) (String (byte 157) (String (byte 132)
      (String (byte 158) EmptyString))).
Proof. reflexivity. Qed.



End Encoding.

(** C6 (the code on an account label that is not ASCII): the row of
    [BalancesDownloadView] starts with the label as it is, not encoded,
    and the export raises [UnicodeEncodeError]. *)
Theorem balances_account_not_encoded :
  (exists balances,
     BalancesDownloadView.queryrow_to_columns Scenario.depots_store
       Scenario.the_request Scenario.depots
     = Ok (CUnicode Scenario.depots :: balances) /\
     existsb is_unicode balances = false) /\
  get BalancesDownload Scenario.a_clock Scenario.depots_store
    Scenario.the_request
  = Raise UnicodeEncodeError.
Proof.
  split; [|vm_compute; reflexivity].
  eexists. split; [vm_compute; reflexivity|reflexivity].
Qed.

(** * Further properties of the views *)

(** ** Coupon query sources *)

Section CouponQuerysets.


Lemma filter_filter {A} (f g : A -> bool) (l : list A) :
  List.filter f (List.filter g l) = List.filter (fun x => g x && f x) l.
Proof.
  induction l as [|x l IH]; simpl; [done|].
  destruct (g x); simpl; [destruct (f x)|]; by rewrite IH.
Qed.



End CouponQuerysets.



(** X3: when the coupon selected for the download is the coupon of the
    page, the page lists the recorded part of what the download exports. *)
Theorem coupon_page_is_recorded_part_of_download
    (db : database) (rq : request) :
  rq_coupons rq = [rq_coupon rq] ->
  CouponMetricsView.get_queryset db rq
  = List.filter recorded (CouponMetricsDownloadView.get_queryset db rq).
Proof.
  intros Hsel.
  unfold CouponMetricsView.get_queryset, CouponMetricsView.super_get_queryset,
    CouponMetricsDownloadView.get_queryset.
  rewrite Hsel, filter_filter. apply filter_ext. intros ci.
  unfold coupon_in. simpl. rewrite orb_false_r.
  by destruct (recorded ci).
Qed.

Lemma coupon_page_is_recorded_part_of_download_witness :
  CouponMetricsView.get_queryset Scenario.store Scenario.the_request
  = List.filter recorded
      (CouponMetricsDownloadView.get_queryset Scenario.store
         Scenario.the_request).
Proof.
  apply coupon_page_is_recorded_part_of_download. reflexivity.
Defined.



(** ** Dashboard contexts and the super context *)

(** X5: each dashboard view only adds to the context it gets from its
    base classes.  Any key other than the view's own keeps its value:
    "coupon_performance_count" for [CouponMetricsView]; "title", "tables"
    and "plans" for [PlansMetricsView]; "title" and "tables" for
    [RevenueMetricsView].  The views' titles replace a title of the super
    context. *)
Theorem dashboards_extend_super_context
    (ext : externals) (super_context : gmap string value)
    (db : database) (rq : request) (k : string) :
  (k <> "coupon_performance_count" ->
   CouponMetricsView.get_context_data super_context db rq !! k
   = super_context !! k) /\
  (k <> "title" -> k <> "tables" -> k <> "plans" ->
   PlansMetricsView.get_context_data ext super_context db rq !! k
   = super_context !! k) /\
  (k <> "title" -> k <> "tables" ->
   RevenueMetricsView.get_context_data ext super_context rq !! k
   = super_context !! k) /\
  PlansMetricsView.get_context_data ext super_context db rq !! "title"
    = Some (VStr "Plans") /\
  RevenueMetricsView.get_context_data ext super_context rq !! "title"
    = Some (VStr "Revenue").
Proof.
  unfold CouponMetricsView.get_context_data, PlansMetricsView.get_context_data,
    RevenueMetricsView.get_context_data, update. simpl.
  split; [|split; [|split; [|split]]].
  - intros Hk. by rewrite lookup_insert_ne.
  - intros H1 H2 H3. by rewrite !lookup_insert_ne.
  - intros H1 H2. by rewrite !lookup_insert_ne.
  - rewrite !lookup_insert_ne by done. apply lookup_insert_eq.
  - rewrite lookup_insert_ne by done. apply lookup_insert_eq.
Qed.


(** ** Rows of the coupon export *)

Section CouponRow.



End CouponRow.


(** ** File names, again *)

Section FileNames.

Lemma number_of_shift acc s :
  number_of acc s = acc * 10 ^ Z.of_nat (String.length s) + number_of 0 s.
Proof.
  revert acc. induction s as [|c s IH]; intros acc.
  - simpl. lia.
  - cbn [number_of String.length]. rewrite (IH (acc * 10 + _)), (IH (0 * 10 + _)).
    rewrite Nat2Z.inj_succ, Z.pow_succ_r by lia. lia.
Qed.

(** The stamp determines the date. *)
Lemma strftime_Ymd_suffix_inj d d' (suffix : string) :
  valid_date d = true -> valid_date d' = true ->
  strftime_Ymd d +:+ suffix = strftime_Ymd d' +:+ suffix ->
  d = d'.
Proof.
  intros Hv Hv' Heq.
  apply (f_equal (number_of 0)) in Heq. revert Heq.
  apply valid_date_bounds in Hv as (Hy & Hm & Hd).
  apply valid_date_bounds in Hv' as (Hy' & Hm' & Hd').
  pose proof (days_in_month_bounds (year d) (month d)).
  pose proof (days_in_month_bounds (year d') (month d')).
  change (strftime_Ymd d +:+ suffix)
    with (zero_pad4 (year d) +:+ zero_pad2 (month d) +:+ zero_pad2 (day d)
          +:+ suffix).
  change (strftime_Ymd d' +:+ suffix)
    with (zero_pad4 (year d') +:+ zero_pad2 (month d') +:+ zero_pad2 (day d')
          +:+ suffix).
  rewrite !number_of_zero_pad4, !number_of_zero_pad2 by lia.
  rewrite (number_of_shift (_ + day d)), (number_of_shift (_ + day d')).
  assert (0 < 10 ^ Z.of_nat (String.length suffix)) by (apply Z.pow_pos_nonneg; lia).
  intros Heq.
  assert (year d * 10000 + month d * 100 + day d
          = year d' * 10000 + month d' * 100 + day d') as Hnum by nia.
  destruct d, d'; simpl in *. f_equal; lia.
Qed.

(** A dated file name is the report key, a dash, the stamp of the day and
    the extension. *)
Lemma get_filename_stamp v c :
  v <> BalancesDownload ->
  get_filename v c
  = (report_key v +:+ "-") +:+ strftime_Ymd (today v c) +:+ ".csv".
Proof. intros Hv. by destruct v. Qed.

End FileNames.

(** X8: the file names of two different download views never coincide,
    whatever the clocks read. *)
Theorem get_filename_tells_view (v v' : download_view) (c c' : clock) :
  get_filename v c = get_filename v' c' -> v = v'.
Proof.
  destruct v, v'; try reflexivity; intros Heq; exfalso;
    cbn -[strftime_Ymd] in Heq; discriminate Heq.
Qed.

Lemma get_filename_tells_view_witness :
  ActiveSubscriptionDownload = ActiveSubscriptionDownload.
Proof.
  exact (get_filename_tells_view ActiveSubscriptionDownload
           ActiveSubscriptionDownload Scenario.a_clock Scenario.a_clock
           eq_refl).
Defined.

(** X9: a dated export is named after the day alone: two requests to the
    same view get the same file name exactly when their clocks read the
    same date. *)
Theorem get_filename_same_day (v : download_view) (c c' : clock) :
  v <> BalancesDownload ->
  valid_date (today v c) = true ->
  valid_date (today v c') = true ->
  (get_filename v c = get_filename v c' <-> today v c = today v c').
Proof.
  intros Hv Hd Hd'.
  rewrite !(get_filename_stamp v) by done. split.
  - intros Heq%(inj (String.append _)).
    by apply (strftime_Ymd_suffix_inj _ _ ".csv" Hd Hd').
  - by intros ->.
Qed.

Lemma get_filename_same_day_witness :
  get_filename RegisteredDownload Scenario.a_clock
  = get_filename RegisteredDownload
      (mkclock (Scenario.at_noon 2024 4 2)
               (mkdatetime (mkdate 2024 4 1) 23 59 59))
  <-> today RegisteredDownload Scenario.a_clock
      = today RegisteredDownload
          (mkclock (Scenario.at_noon 2024 4 2)
                   (mkdatetime (mkdate 2024 4 1) 23 59 59)).
Proof.
  apply get_filename_same_day; [discriminate|reflexivity|reflexivity].
Defined.

(** ** Exports that cannot fail *)

Section TotalExports.





End TotalExports.


